(** * A shallow embedding of pysemverx/registry.py (MVP-SemverX)

    The Python module is a registry client: a SemVerX version type with
    [parse] and [__str__], the [FaultState] enum, and [Registry.fetch],
    [Registry.install], [Registry._verify_checksum],
    [Registry.subscribe], [Registry.unsubscribe], [Registry.resolve_dag]
    and [Registry.__init__].  HTTP is modelled by a fixed server snapshot
    (functions from request to response), printing and requests by an
    event trace, exceptions by an explicit exception type. *)

From Stdlib Require Import ZArith List String Ascii Bool Lia.
From stdpp Require Import base gmap strings.
Import ListNotations.
Open Scope Z_scope.

(** ** Python exceptions raised by the module *)

Inductive value_reason :=
  | BadFormat        (* raise ValueError("Invalid SemVerX format") *)
  | NotAnInt         (* int(token) rejects the token *)
  | NotAVersionState (* VersionState(token) *)
  | NotAFaultState (v : Z)      (* FaultState(v) *)
  | UnpackParts (n : nat).      (* dep_id, dep_version = parts, len parts <> 2 *)

Inductive res_reason :=
  | PackageNotFound (package_id : string)
  | FetchFailed (text : string)
  | PanicState (error_message : string)
  | ChecksumMismatch (package_id expected got : string).

Inductive exn :=
  | ResolutionError (r : res_reason)
  | ValueError (r : value_reason)
  | HTTPError (status : Z)          (* requests' raise_for_status *)
  | KeyError (key : string)
  | SubscribeFailed (text : string). (* raise Exception("Failed to subscribe") *)

(** ** Character and string helpers (Python [str] over Latin-1 text) *)

Definition is_digit (c : ascii) : bool :=
  let n := nat_of_ascii c in (48 <=? n)%nat && (n <=? 57)%nat.

Definition digit_value (c : ascii) : Z := Z.of_nat (nat_of_ascii c) - 48.

(** Whitespace skipped by CPython's [int()]: the ASCII spaces and the
    Latin-1 code points that [str.isspace] accepts. *)
Definition is_py_space (c : ascii) : bool :=
  let n := nat_of_ascii c in
  ((9 <=? n) && (n <=? 13))%nat || ((28 <=? n) && (n <=? 32))%nat
  || (n =? 133)%nat || (n =? 160)%nat.

(** [s.split(sep)] with a one-character separator. *)
Fixpoint py_split (sep : ascii) (s : string) : list string :=
  match s with
  | EmptyString => [EmptyString]
  | String c r =>
      if Ascii.eqb c sep then EmptyString :: py_split sep r
      else match py_split sep r with
           | h :: t => String c h :: t
           | [] => [String c EmptyString]
           end
  end.

(** ** [int(token)]: optional surrounding whitespace, an optional sign,
    decimal digits with single underscores between digits. *)

Fixpoint strip_left (l : list ascii) : list ascii :=
  match l with
  | c :: r => if is_py_space c then strip_left r else l
  | [] => []
  end.

Definition py_strip (l : list ascii) : list ascii :=
  rev (strip_left (rev (strip_left l))).

(** Digits after a digit has been read; [acc] is the value so far. *)
Fixpoint scan_digits (l : list ascii) (acc : Z) : option Z :=
  match l with
  | [] => Some acc
  | c :: r =>
      if is_digit c then scan_digits r (acc * 10 + digit_value c)
      else if Ascii.eqb c "_"%char then
        match r with
        | c2 :: r2 => if is_digit c2 then scan_digits r2 (acc * 10 + digit_value c2)
                      else None
        | [] => None
        end
      else None
  end.

Definition int_body (l : list ascii) : option Z :=
  match l with
  | c :: r => if is_digit c then scan_digits r (digit_value c) else None
  | [] => None
  end.

Definition py_int (s : string) : option Z :=
  match py_strip (list_ascii_of_string s) with
  | c :: r =>
      if Ascii.eqb c "-"%char then option_map Z.opp (int_body r)
      else if Ascii.eqb c "+"%char then int_body r
      else int_body (c :: r)
  | [] => None
  end.

(** ** [str(n)] for a Python int *)

Definition digit_char (d : Z) : ascii := ascii_of_nat (Z.to_nat (d + 48)).

Fixpoint digits_fuel (fuel : nat) (n : Z) : list ascii :=
  match fuel with
  | O => []
  | S f => if n <? 10 then [digit_char n]
           else digits_fuel f (n / 10) ++ [digit_char (n mod 10)]
  end.

Definition nat_digits (n : Z) : list ascii :=
  digits_fuel (S (Z.to_nat (Z.log2 n))) n.

Definition py_str_int (z : Z) : string :=
  if z <? 0 then String "-" (string_of_list_ascii (nat_digits (- z)))
  else string_of_list_ascii (nat_digits z).

(** ** VersionState and SemverX *)

Inductive VersionState := STABLE | LEGACY | EXPERIMENTAL.

Definition VersionState_value (s : VersionState) : string :=
  match s with
  | STABLE => "stable"
  | LEGACY => "legacy"
  | EXPERIMENTAL => "experimental"
  end.

(** [VersionState(value)]: lookup by value, [ValueError] otherwise. *)
Definition VersionState_of (v : string) : exn + VersionState :=
  if String.eqb v "stable" then inr STABLE
  else if String.eqb v "legacy" then inr LEGACY
  else if String.eqb v "experimental" then inr EXPERIMENTAL
  else inl (ValueError NotAVersionState).

Record SemverX := mkSemverX {
  major : Z; major_state : VersionState;
  minor : Z; minor_state : VersionState;
  patch : Z; patch_state : VersionState }.

(** [SemverX.__str__] *)
Definition SemverX_str (v : SemverX) : string :=
  py_str_int (major v) ++ "." ++ VersionState_value (major_state v) ++ "." ++
  py_str_int (minor v) ++ "." ++ VersionState_value (minor_state v) ++ "." ++
  py_str_int (patch v) ++ "." ++ VersionState_value (patch_state v).

Definition int_of (t : string) : exn + Z :=
  match py_int t with Some z => inr z | None => inl (ValueError NotAnInt) end.

Definition bind_exn {A B} (m : exn + A) (k : A -> exn + B) : exn + B :=
  match m with inl e => inl e | inr a => k a end.

Notation "x <-? m ;; k" := (bind_exn m (fun x => k))
  (at level 100, m at next level, right associativity).

(** [SemverX.parse]: the keyword arguments are evaluated left to right. *)
Definition SemverX_parse (version_str : string) : exn + SemverX :=
  match py_split "." version_str with
  | [p0; p1; p2; p3; p4; p5] =>
      a <-? int_of p0 ;; b <-? VersionState_of p1 ;;
      c <-? int_of p2 ;; d <-? VersionState_of p3 ;;
      e <-? int_of p4 ;; f <-? VersionState_of p5 ;;
      inr (mkSemverX a b c d e f)
  | _ => inl (ValueError BadFormat)
  end.

(** ** SHA-256 ([hashlib.sha256(data).hexdigest()]) over 32-bit words as Z *)

Module SHA256.

Definition mask32 (x : Z) : Z := Z.land x (2 ^ 32 - 1).
Definition add32 (x y : Z) : Z := mask32 (x + y).
Definition rotr (x : Z) (n : Z) : Z :=
  Z.lor (Z.shiftr x n) (mask32 (Z.shiftl x (32 - n))).

Definition ch (e f g : Z) : Z := Z.lxor (Z.land e f) (Z.land (Z.lxor e (2 ^ 32 - 1)) g).
Definition maj (a b c : Z) : Z := Z.lxor (Z.land a b) (Z.lxor (Z.land a c) (Z.land b c)).
Definition bsig0 (a : Z) : Z := Z.lxor (rotr a 2) (Z.lxor (rotr a 13) (rotr a 22)).
Definition bsig1 (e : Z) : Z := Z.lxor (rotr e 6) (Z.lxor (rotr e 11) (rotr e 25)).
Definition ssig0 (w : Z) : Z := Z.lxor (rotr w 7) (Z.lxor (rotr w 18) (Z.shiftr w 3)).
Definition ssig1 (w : Z) : Z := Z.lxor (rotr w 17) (Z.lxor (rotr w 19) (Z.shiftr w 10)).

(** Round constants, in decimal. *)
Definition K : list Z :=
  [1116352408; 1899447441; 3049323471; 3921009573; 961987163; 1508970993;
   2453635748; 2870763221; 3624381080; 310598401; 607225278; 1426881987;
   1925078388; 2162078206; 2614888103; 3248222580; 3835390401; 4022224774;
   264347078; 604807628; 770255983; 1249150122; 1555081692; 1996064986;
   2554220882; 2821834349; 2952996808; 3210313671; 3336571891; 3584528711;
   113926993; 338241895; 666307205; 773529912; 1294757372; 1396182291;
   1695183700; 1986661051; 2177026350; 2456956037; 2730485921; 2820302411;
   3259730800; 3345764771; 3516065817; 3600352804; 4094571909; 275423344;
   430227734; 506948616; 659060556; 883997877; 958139571; 1322822218;
   1537002063; 1747873779; 1955562222; 2024104815; 2227730452; 2361852424;
   2428436474; 2756734187; 3204031479; 3329325298].

(** Initial hash value, in decimal. *)
Definition H0 : list Z :=
  [1779033703; 3144134277; 1013904242; 2773480762;
   1359893119; 2600822924; 528734635; 1541459225].

(** Padding: a 1 bit, zeros, and the 64-bit big-endian bit length. *)
Definition be_bytes (n : nat) (x : Z) : list Z :=
  map (fun i => Z.land (Z.shiftr x (8 * Z.of_nat (n - 1 - i))) 255) (seq 0 n).

Definition pad (msg : list Z) : list Z :=
  let len := Z.of_nat (length msg) in
  msg ++ [128] ++ repeat 0 (Z.to_nat ((55 - len) mod 64)) ++ be_bytes 8 (8 * len).

Fixpoint chunks (fuel : nat) (l : list Z) : list (list Z) :=
  match fuel with
  | O => []
  | S f => match l with [] => [] | _ => firstn 64 l :: chunks f (skipn 64 l) end
  end.

Fixpoint words (fuel : nat) (l : list Z) : list Z :=
  match fuel, l with
  | S f, a :: b :: c :: d :: r =>
      (a * 2 ^ 24 + b * 2 ^ 16 + c * 2 ^ 8 + d) :: words f r
  | _, _ => []
  end.

(** Message schedule: W[t] for t = 16..63, appended in order. *)
Fixpoint schedule (n : nat) (w : list Z) : list Z :=
  match n with
  | O => w
  | S k =>
      let t := length w in
      let wt := add32 (add32 (ssig1 (nth (t - 2) w 0)) (nth (t - 7) w 0))
                      (add32 (ssig0 (nth (t - 15) w 0)) (nth (t - 16) w 0)) in
      schedule k (w ++ [wt])
  end.

Definition round (st : list Z) (kw : Z * Z) : list Z :=
  match st with
  | [a; b; c; d; e; f; g; h] =>
      let t1 := add32 (add32 (add32 h (bsig1 e)) (add32 (ch e f g) (fst kw))) (snd kw) in
      let t2 := add32 (bsig0 a) (maj a b c) in
      [add32 t1 t2; a; b; c; add32 d t1; e; f; g]
  | _ => st
  end.

Definition compress (hs : list Z) (block : list Z) : list Z :=
  let w := schedule 48 (words 16 block) in
  let st := fold_left round (combine K w) hs in
  map (fun p => add32 (fst p) (snd p)) (combine hs st).

Definition digest_words (msg : list Z) : list Z :=
  let p := pad msg in fold_left compress (chunks (length p) p) H0.

Definition hex_char (d : Z) : ascii :=
  if d <? 10 then ascii_of_nat (Z.to_nat (48 + d)) else ascii_of_nat (Z.to_nat (87 + d)).

Definition word_hex (w : Z) : list ascii :=
  map (fun i => hex_char (Z.land (Z.shiftr w (4 * Z.of_nat (7 - i))) 15)) (seq 0 8).

(** [hashlib.sha256(data).hexdigest()]: 64 lowercase hex digits. *)
Definition hexdigest (data : list Byte.byte) : string :=
  string_of_list_ascii
    (concat (map word_hex (digest_words (map (fun b => Z.of_nat (Byte.to_nat b)) data)))).

End SHA256.

(** ** FaultState *)

Inductive FaultState :=
  | CLEAN | LOW_WARNING | MEDIUM_WARNING | HIGH_WARNING
  | LOW_DANGER | CRITICAL_DANGER | LOW_PANIC | SYSTEM_PANIC.

Definition FaultState_value (s : FaultState) : Z :=
  match s with
  | CLEAN => 0 | LOW_WARNING => 1 | MEDIUM_WARNING => 3 | HIGH_WARNING => 5
  | LOW_DANGER => 6 | CRITICAL_DANGER => 11 | LOW_PANIC => 12 | SYSTEM_PANIC => 17
  end.

(** [FaultState(v)]: Enum lookup by value; any other value raises
    [ValueError]. *)
Definition FaultState_of (v : Z) : exn + FaultState :=
  if v =? 0 then inr CLEAN
  else if v =? 1 then inr LOW_WARNING
  else if v =? 3 then inr MEDIUM_WARNING
  else if v =? 5 then inr HIGH_WARNING
  else if v =? 6 then inr LOW_DANGER
  else if v =? 11 then inr CRITICAL_DANGER
  else if v =? 12 then inr LOW_PANIC
  else if v =? 17 then inr SYSTEM_PANIC
  else inl (ValueError (NotAFaultState v)).

(** The panic test of [Registry.fetch]:
    [fault_state.value >= FaultState.SYSTEM_PANIC.value]. *)
Definition is_panic (s : FaultState) : bool :=
  FaultState_value SYSTEM_PANIC <=? FaultState_value s.

(** ** Package metadata *)

Inductive ResolutionStrategy := EULERIAN | HAMILTONIAN | ASTAR | HYBRID.

(** The JSON object of a 200 response to [GET .../packages/<id>]; the
    keys read with [data.get] are optional. *)
Record PackageData := {
  d_id : string; d_version : string; d_name : string; d_description : string;
  d_author : string; d_license : string; d_tarball_url : string;
  d_dependencies : option (list string); d_checksum : string;
  d_fault_state : option Z; d_error_message : option string }.

Record Package := {
  id : string; version : SemverX; name : string; description : string;
  author : string; license : string; tarball_url : string;
  dependencies : list string; checksum : string; fault_state : FaultState }.

Record PackageResponse := { status_code : Z; text : string; json : PackageData }.
Record BlobResponse := { blob_status : Z; content : list Byte.byte }.
Record SubscribeResponse :=
  { sub_status : Z; sub_text : string; sub_observer_id : option string }.

(** The remote registry, as seen through [self.session] at a fixed
    endpoint and access tier. *)
Record Remote := {
  get_package : string -> string -> ResolutionStrategy -> PackageResponse;
  get_blob : string -> BlobResponse;
  post_subscribe : string -> SubscribeResponse }.

(** ** Effects: requests and prints are recorded in a trace *)

Inductive event :=
  | GetPackage (package_id version_range : string) (strategy : ResolutionStrategy)
  | GetBlob (url : string)
  | PrintInstalling (pkg_name pkg_version : string).

Inductive outcome (A : Type) :=
  | Ret (a : A)
  | Exc (e : exn)
  | OutOfFuel.
Arguments Ret {A} a.
Arguments Exc {A} e.
Arguments OutOfFuel {A}.

Definition M (A : Type) : Type := list event * outcome A.

Definition ret {A} (a : A) : M A := ([], Ret a).
Definition raise {A} (e : exn) : M A := ([], Exc e).
Definition emit (ev : event) : M unit := ([ev], Ret tt).
Definition lift {A} (r : exn + A) : M A :=
  match r with inl e => raise e | inr a => ret a end.

Definition bind {A B} (m : M A) (k : A -> M B) : M B :=
  match m with
  | (t, Ret a) => let (t', r) := k a in (t ++ t', r)
  | (t, Exc e) => (t, Exc e)
  | (t, OutOfFuel) => (t, OutOfFuel)
  end.

Notation "x <- m ;; k" := (bind m (fun x => k))
  (at level 100, m at next level, right associativity).
Notation "m ;;; k" := (bind m (fun _ : unit => k))
  (at level 100, right associativity).

Section Registry.

Variable R : Remote.

(** [Registry.fetch] *)
Definition fetch (package_id version_range : string) (strategy : ResolutionStrategy)
    : M Package :=
  emit (GetPackage package_id version_range strategy) ;;;
  let response := get_package R package_id version_range strategy in
  if status_code response =? 404 then
    raise (ResolutionError (PackageNotFound package_id))
  else if negb (status_code response =? 200) then
    raise (ResolutionError (FetchFailed (text response)))
  else
    let data := json response in
    fs <- lift (FaultState_of (default 0 (d_fault_state data))) ;;
    if is_panic fs then
      raise (ResolutionError (PanicState (default "Unknown error" (d_error_message data))))
    else
      v <- lift (SemverX_parse (d_version data)) ;;
      ret {| id := d_id data; version := v; name := d_name data;
             description := d_description data; author := d_author data;
             license := d_license data; tarball_url := d_tarball_url data;
             dependencies := default [] (d_dependencies data);
             checksum := d_checksum data; fault_state := fs |}.

(** [Registry._verify_checksum]: the digest is compared with [!=]. *)
Definition verify_checksum (package : Package) : M unit :=
  emit (GetBlob (tarball_url package)) ;;;
  let tarball_data := content (get_blob R (tarball_url package)) in
  let calculated_checksum := SHA256.hexdigest tarball_data in
  if negb (String.eqb calculated_checksum (checksum package)) then
    raise (ResolutionError
             (ChecksumMismatch (id package) (checksum package) calculated_checksum))
  else ret tt.

(** [response.raise_for_status()] *)
Definition raise_for_status (r : BlobResponse) : M unit :=
  if (400 <=? blob_status r) && (blob_status r <? 600) then raise (HTTPError (blob_status r))
  else ret tt.

(** [dep_id, dep_version = dep.split('@')] *)
Definition unpack2 (parts : list string) : exn + (string * string) :=
  match parts with
  | [a; b] => inr (a, b)
  | _ => inl (ValueError (UnpackParts (length parts)))
  end.

(** The [for dep in package.dependencies] loop of [install], given the
    recursive call. *)
Fixpoint install_deps (inst : string -> string -> M Package) (deps : list string)
    : M unit :=
  match deps with
  | [] => ret tt
  | dep :: rest =>
      p <- lift (unpack2 (py_split "@" dep)) ;;
      _ <- inst (fst p) (snd p) ;;
      install_deps inst rest
  end.

(** [Registry.install]; [fuel] bounds the recursion depth, [OutOfFuel]
    means no result within that depth. *)
Fixpoint install (fuel : nat) (package_id version_range : string) (verify : bool)
    : M Package :=
  match fuel with
  | O => ([], OutOfFuel)
  | S f =>
      package <- fetch package_id version_range HYBRID ;;
      (if verify then verify_checksum package else ret tt) ;;;
      emit (GetBlob (tarball_url package)) ;;;
      raise_for_status (get_blob R (tarball_url package)) ;;;
      emit (PrintInstalling (name package) (SemverX_str (version package))) ;;;
      install_deps (fun i v => install f i v verify) (dependencies package) ;;;
      ret package
  end.

End Registry.

(** ** Subscriptions: [self.observers : Dict[str, List[Callable]]];
    a callback is identified by a number. *)

Definition Callback := nat.

(** [Registry.subscribe]: the new table and the result. *)
Definition subscribe (R : Remote) (observers : gmap string (list Callback))
    (package_id : string) (callback : Callback)
    : gmap string (list Callback) * (exn + string) :=
  let observers1 :=
    match observers !! package_id with
    | None => <[package_id := []]> observers
    | Some _ => observers
    end in
  let observers2 :=
    <[package_id := default [] (observers1 !! package_id) ++ [callback]]> observers1 in
  let response := post_subscribe R package_id in
  if negb (sub_status response =? 200) then
    (observers2, inl (SubscribeFailed (sub_text response)))
  else match sub_observer_id response with
       | Some observer_id => (observers2, inr observer_id)
       | None => (observers2, inl (KeyError "observer_id"))
       end.

(** ** Observations on traces *)

(** Packages reported by the [Installing ...] print, in order. *)
Definition installs (t : list event) : list string :=
  flat_map (fun ev => match ev with PrintInstalling n _ => [n] | _ => [] end) t.

(** Number of metadata requests for [target]. *)
Definition fetch_count (target : string) (t : list event) : nat :=
  length (List.filter (fun ev => match ev with
                            | GetPackage i _ _ => String.eqb i target
                            | _ => false end) t).

(** ** Concrete registries used by the examples *)

Definition empty_digest : string :=
  "e3b0c44298fc1c149afbf4c8996fb92427ae41e4649b934ca495991b7852b855".

Definition v100 : string := "1.stable.0.stable.0.stable".

Definition node_data (pid : string) (deps : list string) (fault : Z) (cks : string)
    : PackageData :=
  {| d_id := pid; d_version := v100; d_name := pid; d_description := "";
     d_author := "obinexus"; d_license := "MIT";
     d_tarball_url := "https://r.obinexus.org/tarballs/" ++ pid;
     d_dependencies := Some deps; d_checksum := cks;
     d_fault_state := Some fault; d_error_message := None |}.

(** A registry serving the packages of [g] (id, dependency declarations,
    fault value, checksum), each with an empty tarball. *)
Definition graph_remote (g : list (string * (list string * Z * string))) : Remote :=
  {| get_package := fun pid _ _ =>
       match List.find (fun e => String.eqb (fst e) pid) g with
       | Some (_, (deps, fault, cks)) =>
           {| status_code := 200; text := "{}"; json := node_data pid deps fault cks |}
       | None =>
           {| status_code := 404; text := "Not Found"; json := node_data pid [] 0 "" |}
       end;
     get_blob := fun _ => {| blob_status := 200; content := [] |};
     post_subscribe := fun _ =>
       {| sub_status := 200; sub_text := "{}"; sub_observer_id := Some "obs-1" |} |}.

Definition dep (pid : string) : string := pid ++ "@" ++ v100.

Definition chain_AB : Remote :=
  graph_remote [("A", ([dep "B"], 0, empty_digest)); ("B", ([], 0, empty_digest))].

Definition cycle_ABC : Remote :=
  graph_remote [("A", ([dep "B"], 0, empty_digest)); ("B", ([dep "C"], 0, empty_digest));
                ("C", ([dep "A"], 0, empty_digest))].

Definition diamond : Remote :=
  graph_remote [("A", ([dep "B"; dep "C"], 0, empty_digest));
                ("B", ([dep "D"], 0, empty_digest)); ("C", ([dep "D"], 0, empty_digest));
                ("D", ([], 0, empty_digest))].

Definition panic_root (fault : Z) : Remote :=
  graph_remote [("A", ([dep "B"], fault, empty_digest)); ("B", ([], 0, empty_digest))].

(** The digest of the empty tarball written with upper-case hex letters. *)
Definition empty_digest_upper : string :=
  "E3B0C44298FC1C149AFBF4C8996FB92427AE41E4649B934CA495991B7852B855".

Definition upper_checksum : Remote :=
  graph_remote [("A", ([], 0, empty_digest_upper))].

Definition scoped_dep : Remote :=
  graph_remote [("A", (["@obinexus/core@2.stable.1.stable.0.stable"], 0, empty_digest))].

Definition failing_subscribe : Remote :=
  {| get_package := get_package chain_AB; get_blob := get_blob chain_AB;
     post_subscribe := fun _ =>
       {| sub_status := 503; sub_text := "Service Unavailable"; sub_observer_id := None |} |}.

(** ** Auxiliary notions for the properties *)

(** The root's metadata is served, its checksum (if checked) matches and
    its tarball request does not fail. *)
Definition node_ok (R : Remote) (verify : bool) (package_id version_range : string)
    (p : Package) : Prop :=
  fetch R package_id version_range HYBRID = ([GetPackage package_id version_range HYBRID], Ret p) /\
  (verify = true -> SHA256.hexdigest (content (get_blob R (tarball_url p))) = checksum p) /\
  ~ (400 <= blob_status (get_blob R (tarball_url p)) < 600).

Definition install_prefix (verify : bool) (package_id version_range : string) (p : Package)
    : list event :=
  GetPackage package_id version_range HYBRID ::
  (if verify then [GetBlob (tarball_url p)] else []) ++
  [GetBlob (tarball_url p); PrintInstalling (name p) (SemverX_str (version p))].

Definition named_fault_values : list Z := [0; 1; 3; 5; 6; 11; 12; 17].

(** The dependency declarations that split into an (id, range) pair. *)
Definition dep_targets (deps : list string) : list (string * string) :=
  flat_map (fun d => match unpack2 (py_split "@" d) with
                     | inr e => [e]
                     | inl _ => []
                     end) deps.

(** Number of walks of fewer than [fuel] edges from the root to [target]
    in the graph whose edges are the dependency declarations served by
    the registry. *)
Fixpoint dependency_walks (R : Remote) (fuel : nat) (package_id version_range target : string)
    : nat :=
  match fuel with
  | O => O
  | S f =>
      match snd (fetch R package_id version_range HYBRID) with
      | Ret p =>
          ((if String.eqb package_id target then 1 else 0) +
           list_sum (map (fun e => dependency_walks R f (fst e) (snd e) target)
                         (dep_targets (dependencies p))))%nat
      | _ => O
      end
  end.

(** Occurrences of a character in a string ([s.count(c)]). *)
Fixpoint count_char (c : ascii) (s : string) : nat :=
  match s with
  | EmptyString => O
  | String x r => if Ascii.eqb x c then S (count_char c r) else count_char c r
  end.

(** The nodes of [cycle_ABC]. *)
Definition cycle_ABC_nodes (i v : string) : Prop :=
  (i = "A" \/ i = "B" \/ i = "C") /\ v = v100.

(** [str.lower()] on ASCII letters. *)
Definition ascii_lower (c : ascii) : ascii :=
  let n := nat_of_ascii c in
  if ((65 <=? n) && (n <=? 90))%nat then ascii_of_nat (n + 32) else c.

Definition str_lower (s : string) : string :=
  string_of_list_ascii (map ascii_lower (list_ascii_of_string s)).


Definition state_tokens : list string := ["stable"; "legacy"; "experimental"].


(** One step of [int()]'s decimal accumulation. *)
Definition digit_step (acc : Z) (c : ascii) : Z := acc * 10 + digit_value c.

(** ** The client object: [AccessTier], [Registry.__init__],
    [Registry.unsubscribe] and [Registry.resolve_dag] *)

Inductive AccessTier := LIVE | LOCAL | REMOTE.

Definition AccessTier_value (t : AccessTier) : string :=
  match t with LIVE => "live" | LOCAL => "local" | REMOTE => "remote" end.

(** The attributes of a [Registry] object; [session_headers] are the
    headers of [self.session]. *)
Record Client := {
  endpoint : string; access_tier : AccessTier; auth_token : option string;
  observers : gmap string (list Callback); session_headers : gmap string string }.

(** [Registry.__init__]; [default_headers] are the headers a new
    [requests.Session] starts with.  [if auth_token:] is Python
    truthiness: [None] and the empty string are false. *)
Definition Registry_init (default_headers : gmap string string) (endpoint : string)
    (access_tier : AccessTier) (auth_token : option string) : Client :=
  let headers :=
    match auth_token with
    | Some tok =>
        if negb (String.eqb tok "")
        then <["Authorization" := ("Bearer " ++ tok)%string]> default_headers
        else default_headers
    | None => default_headers
    end in
  {| endpoint := endpoint; access_tier := access_tier; auth_token := auth_token;
     observers := ∅; session_headers := headers |}.

Definition set_observers (c : Client) (o : gmap string (list Callback)) : Client :=
  {| endpoint := endpoint c; access_tier := access_tier c; auth_token := auth_token c;
     observers := o; session_headers := session_headers c |}.

(** [Registry.unsubscribe]: the URL of its DELETE request (whose response
    is not read) and the client afterwards. *)
Definition unsubscribe (c : Client) (package_id observer_id : string) : string * Client :=
  let url := (endpoint c ++ "/" ++ AccessTier_value (access_tier c) ++ "/unsubscribe/"
              ++ observer_id)%string in
  (url, match observers c !! package_id with
        | Some _ => set_observers c (delete package_id (observers c))
        | None => c
        end).


(** ** More observations on traces *)

(** Number of tarball requests. *)
Definition blob_count (t : list event) : nat :=
  length (List.filter (fun ev => match ev with GetBlob _ => true | _ => false end) t).

(** Number of metadata requests. *)
Definition request_count (t : list event) : nat :=
  length (List.filter (fun ev => match ev with GetPackage _ _ _ => true | _ => false end) t).

(** Characters of [hexdigest()]: 0-9 and a-f. *)
Definition is_lower_hex (c : ascii) : bool :=
  let n := nat_of_ascii c in
  ((48 <=? n) && (n <=? 57))%nat || ((97 <=? n) && (n <=? 102))%nat.

Definition is_hexdigest_text (s : string) : bool :=
  (String.length s =? 64)%nat && forallb is_lower_hex (list_ascii_of_string s).

(** ** More concrete registries *)

(** A declares B and the unknown Z. *)
Definition missing_dep : Remote :=
  graph_remote [("A", ([dep "B"; dep "Z"], 0, empty_digest)); ("B", ([], 0, empty_digest))].

(** Every tarball URL answers 404 with a short error page. *)
Definition broken_tarball : Remote :=
  {| get_package := get_package chain_AB;
     get_blob := fun _ => {| blob_status := 404;
                             content := [Byte.x4e; Byte.x6f; Byte.x70; Byte.x65] |};
     post_subscribe := post_subscribe chain_AB |}.


(** * Properties *)

(** ** Evaluation checks of the embedding *)

Example parse_ex1 : SemverX_parse "2.stable.1.stable.0.stable"
  = inr (mkSemverX 2 STABLE 1 STABLE 0 STABLE).
Proof. reflexivity. Qed.
Example parse_ex2 : SemverX_parse " +1_0.legacy.-3.stable.007.experimental"
  = inr (mkSemverX 10 LEGACY (-3) STABLE 7 EXPERIMENTAL).
Proof. reflexivity. Qed.
Example str_ex1 : SemverX_str (mkSemverX 120 STABLE (-45) LEGACY 0 STABLE)
  = "120.stable.-45.legacy.0.stable".
Proof. reflexivity. Qed.
Example sha_empty : SHA256.hexdigest []
  = "e3b0c44298fc1c149afbf4c8996fb92427ae41e4649b934ca495991b7852b855".
Proof. vm_compute. reflexivity. Qed.
Example sha_abc : SHA256.hexdigest [Byte.x61; Byte.x62; Byte.x63]
  = "ba7816bf8f01cfea414140de5dae2223b00361a396177a9cb410ff61f20015ad".
Proof. vm_compute. reflexivity. Qed.

(** ** Monad laws used below *)

Lemma bind_ret_l {A B} (a : A) (k : A -> M B) : bind (ret a) k = k a.
Proof. unfold bind, ret; simpl. destruct (k a); reflexivity. Qed.

Lemma bind_ret_inv {A B} (m : M A) (k : A -> M B) (t : list event) (b : B) :
  bind m k = (t, Ret b) ->
  exists t1 a t2, m = (t1, Ret a) /\ k a = (t2, Ret b) /\ t = t1 ++ t2.
Proof.
  destruct m as [t1 [a | e |]]; simpl; try discriminate.
  destruct (k a) as [t2 r] eqn:Hk. intros H. inversion H; subst.
  exists t1, a, t2. auto.
Qed.

Lemma bind_exc {A B} (t : list event) (e : exn) (k : A -> M B) :
  bind (t, Exc e) k = (t, Exc e).
Proof. reflexivity. Qed.

Lemma bind_ret_trace {A B} (t : list event) (a : A) (k : A -> M B) :
  bind (t, Ret a) k = (t ++ fst (k a), snd (k a)).
Proof. simpl. destruct (k a); reflexivity. Qed.

Ltac fault_cases :=
  unfold FaultState_of;
  repeat match goal with
         | |- context [Z.eqb ?v ?k] => destruct (Z.eqb_spec v k); [subst|]
         end.

(** ** Fetch emits exactly one request *)

Lemma fetch_trace (R : Remote) (package_id version_range : string) (s : ResolutionStrategy) :
  fst (fetch R package_id version_range s) = [GetPackage package_id version_range s].
Proof.
  unfold fetch, emit. rewrite bind_ret_trace. simpl.
  destruct (status_code _ =? 404); [reflexivity|].
  destruct (negb _); [reflexivity|].
  destruct (FaultState_of _) as [e | fs]; [reflexivity|]. simpl.
  destruct (is_panic fs); [reflexivity|].
  destruct (SemverX_parse _); reflexivity.
Qed.

(** ** C1: fault states at or above SYSTEM_PANIC *)

(** Claim C1, as the code has it: when the root's metadata reports a
    fault value [fv >= 17], [install] fails right after the root's own
    metadata request, before any tarball request, install print or
    dependency request; the failure is the PANIC [ResolutionError] when
    [fv = 17] and the [ValueError] of [FaultState(fv)] when [fv > 17]. *)
Theorem C1_blocking_fault_fails_first (R : Remote) (fuel : nat)
    (package_id version_range : string) (verify : bool) :
  status_code (get_package R package_id version_range HYBRID) = 200 ->
  17 <= default 0 (d_fault_state (json (get_package R package_id version_range HYBRID))) ->
  install R (S fuel) package_id version_range verify =
    ([GetPackage package_id version_range HYBRID],
     Exc (let data := json (get_package R package_id version_range HYBRID) in
          let fv := default 0 (d_fault_state data) in
          if fv =? 17
          then ResolutionError (PanicState (default "Unknown error" (d_error_message data)))
          else ValueError (NotAFaultState fv))).
Proof.
  intros Hst Hfv. simpl install. unfold fetch, emit.
  rewrite !bind_ret_trace. simpl fst; simpl snd.
  rewrite Hst. simpl.
  set (data := json (get_package R package_id version_range HYBRID)) in *.
  set (fv := default 0 (d_fault_state data)) in *.
  destruct (Z.eqb_spec fv 17) as [E | NE].
  - rewrite E. reflexivity.
  - assert (FaultState_of fv = inl (ValueError (NotAFaultState fv))) as ->.
    { fault_cases; try lia; reflexivity. }
    reflexivity.
Qed.

Lemma C1_witness :
  status_code (get_package (panic_root 18) "A" v100 HYBRID) = 200 /\
  17 <= default 0 (d_fault_state (json (get_package (panic_root 18) "A" v100 HYBRID))) /\
  install (panic_root 18) 5 "A" v100 true =
    ([GetPackage "A" v100 HYBRID], Exc (ValueError (NotAFaultState 18))).
Proof.
  split; [reflexivity|]. split; [vm_compute; discriminate|].
  exact (C1_blocking_fault_fails_first (panic_root 18) 4 "A" v100 true
           eq_refl ltac:(vm_compute; discriminate)).
Defined.

(** Claim C1 (counterexample): a root with fault value 18 makes [install]
    fail with the [ValueError] of the enum lookup, not with the PANIC
    [ResolutionError]. *)
Lemma C1_counterexample :
  install (panic_root 18) 5 "A" v100 true =
    ([GetPackage "A" v100 HYBRID], Exc (ValueError (NotAFaultState 18))).
Proof. vm_compute. reflexivity. Qed.

(** ** C2: [FaultState(v)] is an exact lookup *)

(** Claim C2, as the code has it: [FaultState(v)] succeeds exactly on the
    eight named values and returns the state with that value; every other
    integer (in-between values such as 2 or 16, negatives, values above 17)
    raises [ValueError]; where both lookups succeed the result is
    monotone; the panic test [value >= 17] holds exactly for
    [SYSTEM_PANIC]. *)
Theorem C2_fault_state_lookup (v : Z) :
  (forall s, FaultState_of v = inr s <-> FaultState_value s = v) /\
  (FaultState_of v = inl (ValueError (NotAFaultState v)) <-> ~ In v named_fault_values) /\
  (forall s, FaultState_of v = inr s -> (is_panic s = true <-> 17 <= v)) /\
  (forall s, is_panic s = true <-> s = SYSTEM_PANIC) /\
  (forall x y sx sy, FaultState_of x = inr sx -> FaultState_of y = inr sy -> x <= y ->
     FaultState_value sx <= FaultState_value sy).
Proof.
  assert (Hlook : forall w s, FaultState_of w = inr s <-> FaultState_value s = w).
  { intros w s. split.
    - fault_cases; intros H; inversion H; reflexivity.
    - intros <-. destruct s; reflexivity. }
  split; [apply Hlook|]. split.
  - unfold named_fault_values. split.
    + fault_cases; try discriminate. intros _ H. simpl in H. intuition lia.
    + intros Hn. fault_cases; try (exfalso; apply Hn; simpl; tauto). reflexivity.
  - split; [|split].
    + intros s Hs. apply Hlook in Hs. subst v. unfold is_panic.
      rewrite Z.leb_le. reflexivity.
    + intros s. destruct s; simpl; split; intros H; try discriminate; try reflexivity.
    + intros x y sx sy Hx Hy Hxy. apply Hlook in Hx. apply Hlook in Hy. lia.
Qed.

(** Claim C2 (counterexample): the in-between values 2 and 16 are not
    classified to LOW_WARNING and LOW_PANIC; the lookup raises. *)
Lemma C2_counterexample :
  FaultState_of 2 = inl (ValueError (NotAFaultState 2)) /\
  FaultState_of 16 = inl (ValueError (NotAFaultState 16)).
Proof. split; reflexivity. Qed.

(** ** One step of [install] *)

Lemma verify_checksum_eq (R : Remote) (p : Package) :
  verify_checksum R p =
    ([GetBlob (tarball_url p)],
     if String.eqb (SHA256.hexdigest (content (get_blob R (tarball_url p)))) (checksum p)
     then Ret tt
     else Exc (ResolutionError (ChecksumMismatch (id p) (checksum p)
                 (SHA256.hexdigest (content (get_blob R (tarball_url p))))))).
Proof.
  unfold verify_checksum, emit. rewrite bind_ret_trace. simpl.
  destruct (String.eqb _ _); reflexivity.
Qed.

Lemma raise_for_status_trace (r : BlobResponse) : fst (raise_for_status r) = [].
Proof. unfold raise_for_status. destruct (_ && _); reflexivity. Qed.

Lemma install_step (R : Remote) (f : nat) (verify : bool) (package_id version_range : string)
    (p : Package) :
  node_ok R verify package_id version_range p ->
  install R (S f) package_id version_range verify =
    (install_prefix verify package_id version_range p ++
       fst (install_deps (fun i v => install R f i v verify) (dependencies p)),
     match snd (install_deps (fun i v => install R f i v verify) (dependencies p)) with
     | Ret _ => Ret p | Exc e => Exc e | OutOfFuel => OutOfFuel
     end).
Proof.
  intros [Hf [Hv Hs]]. simpl install. rewrite Hf, bind_ret_trace.
  assert (Hcheck : (if verify then verify_checksum R p else ret tt) =
                   ((if verify then [GetBlob (tarball_url p)] else []), Ret tt)).
  { destruct verify; [|reflexivity]. rewrite verify_checksum_eq, Hv by reflexivity.
    rewrite String.eqb_refl. reflexivity. }
  assert (Hrs : raise_for_status (get_blob R (tarball_url p)) = ([], Ret tt)).
  { unfold raise_for_status.
    destruct (Z.leb_spec 400 (blob_status (get_blob R (tarball_url p))));
      destruct (Z.ltb_spec (blob_status (get_blob R (tarball_url p))) 600);
      simpl; try reflexivity; lia. }
  simpl fst; simpl snd. rewrite Hcheck. simpl. rewrite Hrs. simpl.
  destruct (install_deps (fun i v => install R f i v verify) (dependencies p)) as [t [u | e |]];
    simpl; unfold install_prefix; rewrite ?app_nil_r, <- ?app_assoc; reflexivity.
Qed.

Lemma install_S_eq (R : Remote) (f : nat) (verify : bool) (package_id version_range : string) :
  install R (S f) package_id version_range verify =
    bind (fetch R package_id version_range HYBRID) (fun package =>
    bind (if verify then verify_checksum R package else ret tt) (fun _ : unit =>
    bind (emit (GetBlob (tarball_url package))) (fun _ : unit =>
    bind (raise_for_status (get_blob R (tarball_url package))) (fun _ : unit =>
    bind (emit (PrintInstalling (name package) (SemverX_str (version package)))) (fun _ : unit =>
    bind (install_deps (fun i v => install R f i v verify) (dependencies package)) (fun _ : unit =>
    ret package)))))).
Proof. reflexivity. Qed.

Lemma install_success_inv (R : Remote) (f : nat) (verify : bool)
    (package_id version_range : string) (t : list event) (p : Package) :
  install R (S f) package_id version_range verify = (t, Ret p) ->
  node_ok R verify package_id version_range p /\
  t = install_prefix verify package_id version_range p ++
        fst (install_deps (fun i v => install R f i v verify) (dependencies p)) /\
  snd (install_deps (fun i v => install R f i v verify) (dependencies p)) = Ret tt.
Proof.
  intros H.
  assert (Hok : node_ok R verify package_id version_range p).
  { rewrite install_S_eq in H.
    apply bind_ret_inv in H as (t1 & pk & t2 & Hf & H & _).
    apply bind_ret_inv in H as (t3 & u3 & t4 & Hv & H & _).
    apply bind_ret_inv in H as (t5 & u5 & t6 & _ & H & _).
    apply bind_ret_inv in H as (t7 & u7 & t8 & Hrs & H & _).
    apply bind_ret_inv in H as (t9 & u9 & t10 & _ & H & _).
    apply bind_ret_inv in H as (t11 & u11 & t12 & _ & H & _).
    inversion H; subst pk.
    pose proof (fetch_trace R package_id version_range HYBRID) as Ht. rewrite Hf in Ht.
    simpl in Ht. subst t1. split; [exact Hf|]. split.
    - intros ->. rewrite verify_checksum_eq in Hv. inversion Hv as [[Ht3 Hr]].
      destruct (String.eqb_spec (SHA256.hexdigest (content (get_blob R (tarball_url p))))
                                (checksum p)); [assumption|discriminate].
    - unfold raise_for_status in Hrs. intros Hb.
      destruct Hb as [Hb1 Hb2]. apply Z.leb_le in Hb1. apply Z.ltb_lt in Hb2.
      rewrite Hb1, Hb2 in Hrs. discriminate. }
  split; [exact Hok|].
  rewrite (install_step R f verify package_id version_range p Hok) in H.
  destruct (snd (install_deps (fun i v => install R f i v verify) (dependencies p)))
    as [[] | e |] eqn:E; inversion H; subst; auto.
Qed.

(** The dependency loop runs each declaration in turn: a successful
    prefix contributes its trace, and the loop stops at the first failure. *)
Lemma install_deps_app (inst : string -> string -> M Package) (pre rest : list string)
    (tp : list event) :
  install_deps inst pre = (tp, Ret tt) ->
  install_deps inst (pre ++ rest) =
    (tp ++ fst (install_deps inst rest), snd (install_deps inst rest)).
Proof.
  revert tp. induction pre as [| d pre IH]; intros tp H.
  - simpl in H. inversion H; subst. simpl. destruct (install_deps inst rest); reflexivity.
  - simpl in H |- *. apply bind_ret_inv in H as (t1 & sp & t2 & Hu & H & ->).
    rewrite Hu, bind_ret_trace. simpl fst; simpl snd.
    apply bind_ret_inv in H as (t3 & q & t4 & Hi & H & ->).
    rewrite Hi, bind_ret_trace. simpl fst; simpl snd.
    rewrite (IH _ H). simpl. rewrite !app_assoc. reflexivity.
Qed.

Lemma unpack2_not_two (l : list string) :
  length l <> 2%nat -> unpack2 l = inl (ValueError (UnpackParts (length l))).
Proof. destruct l as [| a [| b [| c l]]]; simpl; intros H; try reflexivity. lia. Qed.

Lemma py_split_length (c : ascii) (s : string) :
  length (py_split c s) = S (count_char c s).
Proof.
  induction s as [| x r IH]; simpl; [reflexivity|].
  destruct (Ascii.eqb x c); simpl; [rewrite IH; reflexivity|].
  destruct (py_split c r) as [| h t]; simpl in *; congruence.
Qed.

Lemma fetch_count_app (target : string) (t1 t2 : list event) :
  fetch_count target (t1 ++ t2) = (fetch_count target t1 + fetch_count target t2)%nat.
Proof. unfold fetch_count. rewrite List.filter_app, length_app. reflexivity. Qed.

(** ** C3: dependency cycles *)

(** Claim C3, as the code has it: [install] has no cycle detection.  If
    every node of a set (such as the packages of a cycle) is served and
    verified and its first dependency declaration names a node of the set,
    [install] from any node of the set gives no result at any recursion
    depth: it never returns, neither a package nor an error. *)
Theorem C3_cycle_never_returns (R : Remote) (verify : bool)
    (on_cycle : string -> string -> Prop) :
  (forall i v, on_cycle i v ->
     exists p d rest i' v', node_ok R verify i v p /\ dependencies p = d :: rest /\
       py_split "@" d = [i'; v'] /\ on_cycle i' v') ->
  forall fuel i v, on_cycle i v -> snd (install R fuel i v verify) = OutOfFuel.
Proof.
  intros Hcyc fuel. induction fuel as [| f IH]; intros i v Hon; [reflexivity|].
  destruct (Hcyc i v Hon) as (p & d & rest & i' & v' & Hok & Hd & Hs & Hon').
  rewrite (install_step R f verify i v p Hok). simpl snd. rewrite Hd. simpl install_deps.
  rewrite Hs. simpl unpack2. unfold lift. rewrite bind_ret_l. simpl fst; simpl snd.
  specialize (IH i' v' Hon').
  destruct (install R f i' v' verify) as [t r]. simpl in IH. subst r. reflexivity.
Qed.

Lemma C3_witness :
  (forall i v, cycle_ABC_nodes i v ->
     exists p d rest i' v', node_ok cycle_ABC true i v p /\ dependencies p = d :: rest /\
       py_split "@" d = [i'; v'] /\ cycle_ABC_nodes i' v') /\
  snd (install cycle_ABC 25 "A" v100 true) = OutOfFuel.
Proof.
  assert (H : forall i v, cycle_ABC_nodes i v ->
     exists p d rest i' v', node_ok cycle_ABC true i v p /\ dependencies p = d :: rest /\
       py_split "@" d = [i'; v'] /\ cycle_ABC_nodes i' v').
  { intros i v [[-> | [-> | ->]] ->]; do 5 eexists;
      (split; [split; [reflexivity | split; [intros _; vm_compute; reflexivity
                                            | simpl; lia]] |]);
      (split; [reflexivity | split; [reflexivity | unfold cycle_ABC_nodes; simpl; tauto]]). }
  split; [exact H|].
  apply (C3_cycle_never_returns cycle_ABC true cycle_ABC_nodes H 25 "A" v100).
  unfold cycle_ABC_nodes. split; [left|]; reflexivity.
Defined.

(** Claim C3 (counterexample): on the cycle A -> B -> C -> A, [install]
    from A gives no result within 100 levels of recursion; it has
    requested A's metadata 34 times and raised no cycle error. *)
Lemma C3_counterexample :
  snd (install cycle_ABC 100 "A" v100 true) = OutOfFuel /\
  fetch_count "A" (fst (install cycle_ABC 100 "A" v100 true)) = 34%nat.
Proof. split; vm_compute; reflexivity. Qed.

(** ** C4: install order *)




(** ** C5: repeated metadata requests *)

Lemma install_deps_fetch_count (inst : string -> string -> M Package) (target : string)
    (g : string -> string -> nat) (deps : list string) :
  (forall i v t p, inst i v = (t, Ret p) -> fetch_count target t = g i v) ->
  snd (install_deps inst deps) = Ret tt ->
  fetch_count target (fst (install_deps inst deps)) =
    list_sum (map (fun e => g (fst e) (snd e)) (dep_targets deps)).
Proof.
  intros Hinst. induction deps as [| d rest IH]; [reflexivity|].
  simpl install_deps. unfold dep_targets; simpl flat_map; fold (dep_targets rest).
  destruct (unpack2 (py_split "@" d)) as [e | [i v]]; [discriminate|].
  unfold lift. rewrite bind_ret_l. cbn [fst snd].
  destruct (inst i v) as [t1 [q | e |]] eqn:Ei; try discriminate.
  rewrite bind_ret_trace. simpl fst; simpl snd. intros Hr.
  rewrite fetch_count_app, (Hinst _ _ _ _ Ei), (IH Hr). reflexivity.
Qed.

(** Claim C5, as the code has it: [install] keeps no record of visited
    packages.  In a successful [install], the number of metadata requests
    for an identifier equals the number of walks from the root to it along
    dependency declarations: an identifier reachable along several paths
    is fetched once per path. *)
Theorem C5_fetch_once_per_walk (R : Remote) (fuel : nat) (verify : bool)
    (package_id version_range target : string) (t : list event) (p : Package) :
  install R fuel package_id version_range verify = (t, Ret p) ->
  fetch_count target t = dependency_walks R fuel package_id version_range target.
Proof.
  revert package_id version_range t p.
  induction fuel as [| f IH]; intros package_id version_range t p H; [discriminate|].
  apply install_success_inv in H as ([Hf _] & Ht & Hd).
  simpl dependency_walks. rewrite Hf. simpl snd. subst t.
  rewrite fetch_count_app.
  rewrite (install_deps_fetch_count _ target (fun i v => dependency_walks R f i v target)
             (dependencies p) (fun i v t q H => IH i v t q H) Hd).
  f_equal. unfold install_prefix, fetch_count. simpl.
  destruct (String.eqb package_id target); destruct verify; reflexivity.
Qed.

Lemma C5_witness :
  exists t p, install diamond 10 "A" v100 true = (t, Ret p) /\
  fetch_count "D" t = dependency_walks diamond 10 "A" v100 "D" /\
  dependency_walks diamond 10 "A" v100 "D" = 2%nat.
Proof.
  lazymatch eval vm_compute in (install diamond 10 "A" v100 true) with
  | (?t, Ret ?p) =>
      exists t, p; split; [vm_compute; reflexivity|]; split;
      [ apply (C5_fetch_once_per_walk diamond 10 true "A" v100 "D" t p);
        vm_compute; reflexivity
      | vm_compute; reflexivity ]
  end.
Defined.

(** Claim C5 (counterexample): in the diamond A -> B -> D, A -> C -> D,
    [install] requests D's metadata twice. *)
Lemma C5_counterexample :
  fetch_count "D" (fst (install diamond 10 "A" v100 true)) = 2%nat /\
  snd (install diamond 10 "A" v100 true) <> OutOfFuel.
Proof. split; vm_compute; [reflexivity | discriminate]. Qed.

(** ** C10: dependency declarations are unpacked into two parts *)

(** Claim C10: when the dependency loop of [install] reaches a
    declaration that does not contain exactly one '@' (all earlier
    declarations having installed), [install] fails with the [ValueError]
    of the tuple unpacking of [dep.split('@')], not with a
    [ResolutionError]. *)
Theorem C10_unpack_value_error (R : Remote) (f : nat) (verify : bool)
    (package_id version_range : string) (p : Package) (pre post : list string)
    (d : string) (tp : list event) :
  node_ok R verify package_id version_range p ->
  dependencies p = pre ++ d :: post ->
  install_deps (fun i v => install R f i v verify) pre = (tp, Ret tt) ->
  count_char "@" d <> 1%nat ->
  snd (install R (S f) package_id version_range verify) =
    Exc (ValueError (UnpackParts (S (count_char "@" d)))).
Proof.
  intros Hok Hd Hpre Hc.
  rewrite (install_step R f verify package_id version_range p Hok). simpl snd.
  rewrite Hd, (install_deps_app _ pre (d :: post) tp Hpre). simpl snd. simpl install_deps.
  rewrite unpack2_not_two, py_split_length by (rewrite py_split_length; lia).
  reflexivity.
Qed.

Lemma C10_witness :
  exists p, node_ok scoped_dep true "A" v100 p /\
  dependencies p = [] ++ "@obinexus/core@2.stable.1.stable.0.stable"%string :: [] /\
  count_char "@" "@obinexus/core@2.stable.1.stable.0.stable" = 2%nat /\
  snd (install scoped_dep 5 "A" v100 true) = Exc (ValueError (UnpackParts 3)).
Proof.
  lazymatch eval vm_compute in (fetch scoped_dep "A" v100 HYBRID) with
  | (_, Ret ?p) =>
      assert (Hok : node_ok scoped_dep true "A" v100 p)
        by (split; [vm_compute; reflexivity
                   | split; [intros _; vm_compute; reflexivity | simpl; lia]]);
      exists p; split; [exact Hok|];
      split; [reflexivity|]; split; [reflexivity|];
      exact (C10_unpack_value_error scoped_dep 4 true "A" v100 p [] []
               "@obinexus/core@2.stable.1.stable.0.stable" [] Hok eq_refl eq_refl
               ltac:(vm_compute; discriminate))
  end.
Defined.

(** ** C6: checksum verification *)

(** Claim C6, as the code has it: [_verify_checksum] downloads the
    tarball, computes the lower-case SHA-256 hex digest and compares it with
    [package.checksum] by exact (case-sensitive) string equality, raising
    [ResolutionError] for a checksum mismatch (package id, expected
    checksum, computed digest) exactly when the strings differ.  When the
    check fails inside [install], the package is not downloaded for
    installation, not printed as installed, and none of its dependencies is
    requested. *)
Theorem C6_checksum_exact_comparison (R : Remote) (f : nat)
    (package_id version_range : string) (p : Package) :
  verify_checksum R p =
    ([GetBlob (tarball_url p)],
     if String.eqb (SHA256.hexdigest (content (get_blob R (tarball_url p)))) (checksum p)
     then Ret tt
     else Exc (ResolutionError (ChecksumMismatch (id p) (checksum p)
                 (SHA256.hexdigest (content (get_blob R (tarball_url p))))))) /\
  (fetch R package_id version_range HYBRID =
     ([GetPackage package_id version_range HYBRID], Ret p) ->
   SHA256.hexdigest (content (get_blob R (tarball_url p))) <> checksum p ->
   install R (S f) package_id version_range true =
     ([GetPackage package_id version_range HYBRID; GetBlob (tarball_url p)],
      Exc (ResolutionError (ChecksumMismatch (id p) (checksum p)
             (SHA256.hexdigest (content (get_blob R (tarball_url p)))))))).
Proof.
  split; [apply verify_checksum_eq|].
  intros Hf Hne. rewrite install_S_eq, Hf, bind_ret_trace, verify_checksum_eq.
  apply String.eqb_neq in Hne. rewrite Hne. reflexivity.
Qed.

Lemma C6_checksum_exact_comparison_witness :
  exists p, fetch upper_checksum "A" v100 HYBRID = ([GetPackage "A" v100 HYBRID], Ret p) /\
  SHA256.hexdigest (content (get_blob upper_checksum (tarball_url p))) <> checksum p /\
  install upper_checksum 5 "A" v100 true =
    ([GetPackage "A" v100 HYBRID; GetBlob (tarball_url p)],
     Exc (ResolutionError (ChecksumMismatch (id p) (checksum p)
            (SHA256.hexdigest (content (get_blob upper_checksum (tarball_url p))))))).
Proof.
  lazymatch eval vm_compute in (fetch upper_checksum "A" v100 HYBRID) with
  | (_, Ret ?p) =>
      assert (Hf : fetch upper_checksum "A" v100 HYBRID = ([GetPackage "A" v100 HYBRID], Ret p))
        by (vm_compute; reflexivity);
      assert (Hne : SHA256.hexdigest (content (get_blob upper_checksum (tarball_url p)))
                    <> checksum p) by (vm_compute; discriminate);
      exists p; split; [exact Hf|]; split; [exact Hne|];
      exact (proj2 (C6_checksum_exact_comparison upper_checksum 4 "A" v100 p) Hf Hne)
  end.
Defined.

(** Claim C6 (counterexample): a package whose checksum is the digest of
    its tarball written in upper case is rejected, although the two
    strings are equal up to letter case. *)
Lemma C6_counterexample :
  str_lower empty_digest_upper = empty_digest /\
  SHA256.hexdigest [] = empty_digest /\
  install upper_checksum 5 "A" v100 true =
    ([GetPackage "A" v100 HYBRID; GetBlob "https://r.obinexus.org/tarballs/A"],
     Exc (ResolutionError (ChecksumMismatch "A" empty_digest_upper empty_digest))).
Proof. split; [|split]; vm_compute; reflexivity. Qed.

(** ** C9: subscribe without rollback *)

(** Claim C9, as the code has it: [subscribe] appends the callback to the
    local table before registering with the server, and when the server
    answers with a status other than 200 it raises without undoing the
    append: the table keeps the new callback. *)
Theorem C9_failed_subscribe_keeps_callback (R : Remote)
    (observers : gmap string (list Callback)) (package_id : string) (callback : Callback) :
  sub_status (post_subscribe R package_id) <> 200 ->
  subscribe R observers package_id callback =
    (<[package_id := default [] (observers !! package_id) ++ [callback]]> observers,
     inl (SubscribeFailed (sub_text (post_subscribe R package_id)))).
Proof.
  intros Hst. unfold subscribe.
  apply Z.eqb_neq in Hst. rewrite Hst. simpl.
  destruct (observers !! package_id) as [cbs |] eqn:E.
  - rewrite E. reflexivity.
  - rewrite lookup_insert_eq, insert_insert_eq. reflexivity.
Qed.

Lemma C9_witness :
  sub_status (post_subscribe failing_subscribe "@obinexus/core") <> 200 /\
  subscribe failing_subscribe ∅ "@obinexus/core" 7%nat =
    (<[ "@obinexus/core" := [7%nat] ]> ∅, inl (SubscribeFailed "Service Unavailable")).
Proof.
  split; [simpl; lia|].
  exact (C9_failed_subscribe_keeps_callback failing_subscribe ∅ "@obinexus/core" 7%nat
           ltac:(simpl; lia)).
Defined.

(** Claim C9 (counterexample): after a failed [subscribe] on an empty
    table, the table holds the callback. *)
Lemma C9_counterexample :
  fst (subscribe failing_subscribe ∅ "@obinexus/core" 7%nat) !! "@obinexus/core"
    = Some [7%nat] /\
  snd (subscribe failing_subscribe ∅ "@obinexus/core" 7%nat)
    = inl (SubscribeFailed "Service Unavailable").
Proof. split; vm_compute; reflexivity. Qed.

(** ** Decimal text of integers *)


Lemma digit_char_spec (d : Z) :
  0 <= d < 10 -> is_digit (digit_char d) = true /\ digit_value (digit_char d) = d.
Proof.
  intros Hd.
  assert (d = 0 \/ d = 1 \/ d = 2 \/ d = 3 \/ d = 4 \/ d = 5 \/ d = 6 \/ d = 7 \/
          d = 8 \/ d = 9) as Hc by lia.
  repeat destruct Hc as [-> | Hc]; try (subst d); split; reflexivity.
Qed.

Lemma digits_fuel_spec (f : nat) (n : Z) :
  f <> O -> 0 <= n < 10 ^ Z.of_nat f ->
  digits_fuel f n <> [] /\ Forall (fun c => is_digit c = true) (digits_fuel f n) /\
  fold_left digit_step (digits_fuel f n) 0 = n.
Proof.
  revert n. induction f as [| g IH]; intros n Hf Hn; [congruence|].
  simpl digits_fuel. destruct (Z.ltb_spec n 10) as [Hlt | Hge].
  - destruct (digit_char_spec n ltac:(lia)) as [Hd Hv].
    split; [discriminate|]. split; [constructor; auto|].
    simpl. unfold digit_step. rewrite Hv. lia.
  - assert (Hg : g <> O).
    { intros ->. simpl in Hn. lia. }
    assert (Hq : 0 <= n / 10 < 10 ^ Z.of_nat g).
    { split; [apply Z.div_pos; lia|]. apply Z.div_lt_upper_bound; [lia|].
      rewrite Nat2Z.inj_succ, Z.pow_succ_r in Hn by lia. lia. }
    destruct (IH (n / 10) Hg Hq) as (_ & Hall & Hval).
    pose proof (Z.mod_pos_bound n 10 ltac:(lia)) as Hm.
    destruct (digit_char_spec (n mod 10) Hm) as [Hd Hv].
    split; [destruct (digits_fuel g (n / 10)); discriminate|].
    split; [apply Forall_app; split; auto|].
    rewrite fold_left_app, Hval. simpl. unfold digit_step. rewrite Hv.
    pose proof (Z.div_mod n 10 ltac:(lia)). lia.
Qed.

Lemma nat_digits_spec (n : Z) :
  0 <= n ->
  nat_digits n <> [] /\ Forall (fun c => is_digit c = true) (nat_digits n) /\
  fold_left digit_step (nat_digits n) 0 = n.
Proof.
  intros Hn. unfold nat_digits. apply digits_fuel_spec; [discriminate|].
  split; [lia|]. rewrite Nat2Z.inj_succ, Z2Nat.id by apply Z.log2_nonneg.
  destruct (Z.eq_dec n 0) as [-> | Hnz]; [simpl; lia|].
  destruct (Z.log2_spec n ltac:(lia)) as [_ Hup].
  eapply Z.lt_le_trans; [exact Hup|].
  rewrite <- Z.add_1_r. apply Z.pow_le_mono_l. lia.
Qed.

Lemma digit_not_space (c : ascii) : is_digit c = true -> is_py_space c = false.
Proof.
  unfold is_digit, is_py_space. intros H. apply andb_prop in H as [H1 H2].
  apply Nat.leb_le in H1, H2.
  repeat match goal with
         | |- context [Nat.leb ?a ?b] => destruct (Nat.leb_spec a b)
         | |- context [Nat.eqb ?a ?b] => destruct (Nat.eqb_spec a b)
         end; simpl; try reflexivity; lia.
Qed.

Lemma digit_neq (c x : ascii) : is_digit c = true -> is_digit x = false -> Ascii.eqb c x = false.
Proof. intros H1 H2. destruct (Ascii.eqb_spec c x); [subst; congruence | reflexivity]. Qed.

Lemma strip_left_id (l : list ascii) :
  Forall (fun c => is_py_space c = false) l -> strip_left l = l.
Proof. intros H. destruct H as [| c r Hc _]; simpl; [|rewrite Hc]; reflexivity. Qed.

Lemma py_strip_id (l : list ascii) :
  Forall (fun c => is_py_space c = false) l -> py_strip l = l.
Proof.
  intros H. unfold py_strip. rewrite (strip_left_id l H).
  rewrite (strip_left_id (rev l)) by (apply Forall_rev; exact H). apply rev_involutive.
Qed.

Lemma scan_digits_all (l : list ascii) (acc : Z) :
  Forall (fun c => is_digit c = true) l -> scan_digits l acc = Some (fold_left digit_step l acc).
Proof.
  revert acc. induction l as [| c r IH]; intros acc H; [reflexivity|].
  inversion H as [| ? ? Hc Hr]; subst. simpl. rewrite Hc. apply IH, Hr.
Qed.

Lemma int_body_digits (l : list ascii) :
  l <> [] -> Forall (fun c => is_digit c = true) l -> int_body l = Some (fold_left digit_step l 0).
Proof.
  intros Hne H. destruct l as [| c r]; [congruence|].
  inversion H as [| ? ? Hc Hr]; subst. simpl. rewrite Hc, scan_digits_all by exact Hr.
  reflexivity.
Qed.

Lemma py_int_py_str_int (z : Z) : py_int (py_str_int z) = Some z.
Proof.
  unfold py_str_int, py_int. destruct (Z.ltb_spec z 0) as [Hneg | Hpos].
  - destruct (nat_digits_spec (- z) ltac:(lia)) as (Hne & Hall & Hval).
    simpl. rewrite list_ascii_of_string_of_list_ascii.
    rewrite py_strip_id.
    + simpl. rewrite int_body_digits, Hval by assumption. simpl. f_equal. lia.
    + constructor; [reflexivity|]. eapply Forall_impl; [exact Hall | apply digit_not_space].
  - destruct (nat_digits_spec z Hpos) as (Hne & Hall & Hval).
    pose proof (int_body_digits _ Hne Hall) as Hib. rewrite Hval in Hib.
    rewrite list_ascii_of_string_of_list_ascii, py_strip_id
      by (eapply Forall_impl; [exact Hall | apply digit_not_space]).
    remember (nat_digits z) as l eqn:El. clear El.
    destruct l as [| c r]; [congruence|].
    assert (Hc : is_digit c = true) by (inversion Hall; assumption).
    rewrite (digit_neq c "-"%char), (digit_neq c "+"%char) by (reflexivity || assumption).
    exact Hib.
Qed.

(** ** Splitting and joining on '.' *)

Lemma py_split_app_sep (c : ascii) (a b : string) :
  count_char c a = O -> py_split c (a ++ String c EmptyString ++ b) = a :: py_split c b.
Proof.
  induction a as [| x r IH]; intros H; simpl.
  - rewrite Ascii.eqb_refl. reflexivity.
  - simpl in H. destruct (Ascii.eqb x c); [discriminate|].
    rewrite IH by exact H. reflexivity.
Qed.

Lemma py_split_single (c : ascii) (a : string) :
  count_char c a = O -> py_split c a = [a].
Proof.
  induction a as [| x r IH]; intros H; simpl; [reflexivity|].
  simpl in H. destruct (Ascii.eqb x c); [discriminate|]. rewrite IH by exact H. reflexivity.
Qed.



Lemma count_char_digits (c : ascii) (l : list ascii) :
  is_digit c = false -> Forall (fun x => is_digit x = true) l ->
  count_char c (string_of_list_ascii l) = O.
Proof.
  intros Hc H. induction H as [| x r Hx _ IH]; simpl; [reflexivity|].
  rewrite (digit_neq x c Hx Hc). exact IH.
Qed.

Lemma py_str_int_no_dot (z : Z) : count_char "." (py_str_int z) = O.
Proof.
  unfold py_str_int. destruct (Z.ltb_spec z 0).
  - simpl. apply count_char_digits; [reflexivity|]. apply nat_digits_spec. lia.
  - apply count_char_digits; [reflexivity|]. apply nat_digits_spec. lia.
Qed.

Lemma state_no_dot (s : VersionState) : count_char "." (VersionState_value s) = O.
Proof. destruct s; reflexivity. Qed.

Lemma VersionState_of_value (s : VersionState) : VersionState_of (VersionState_value s) = inr s.
Proof. destruct s; reflexivity. Qed.


Lemma py_split_SemverX_str (v : SemverX) :
  py_split "." (SemverX_str v) =
    [py_str_int (major v); VersionState_value (major_state v);
     py_str_int (minor v); VersionState_value (minor_state v);
     py_str_int (patch v); VersionState_value (patch_state v)].
Proof.
  unfold SemverX_str.
  rewrite !py_split_app_sep by (apply py_str_int_no_dot || apply state_no_dot).
  rewrite py_split_single by apply state_no_dot. reflexivity.
Qed.

Lemma int_of_cases (t : string) :
  (exists z, int_of t = inr z /\ py_int t = Some z) \/
  (int_of t = inl (ValueError NotAnInt) /\ py_int t = None).
Proof. unfold int_of. destruct (py_int t); [left; eauto | right; auto]. Qed.

Lemma VersionState_of_cases (t : string) :
  (exists s, VersionState_of t = inr s /\ In t state_tokens) \/
  (VersionState_of t = inl (ValueError NotAVersionState) /\ ~ In t state_tokens).
Proof.
  unfold VersionState_of, state_tokens.
  destruct (String.eqb_spec t "stable"); [left; subst; eexists; simpl; eauto|].
  destruct (String.eqb_spec t "legacy"); [left; subst; eexists; simpl; eauto|].
  destruct (String.eqb_spec t "experimental"); [left; subst; eexists; simpl; eauto|].
  right. split; [reflexivity|]. simpl. intuition congruence.
Qed.

(** ** C7: [SemverX.parse] and [SemverX.__str__] *)



(** ** C8: what [SemverX.parse] accepts *)


(** * Further properties of the module *)

(** ** [Registry.fetch] *)






(** ** [Registry.subscribe], [Registry.unsubscribe], [Registry.__init__] *)

Lemma subscribe_table (R : Remote) (obs : gmap string (list Callback)) (package_id : string)
    (callback : Callback) :
  fst (subscribe R obs package_id callback) =
    <[package_id := default [] (obs !! package_id) ++ [callback]]> obs.
Proof.
  unfold subscribe.
  assert (Hobs : (let observers1 :=
                    match obs !! package_id with
                    | Some _ => obs
                    | None => <[package_id:=[]]> obs
                    end in
                  <[package_id:=default [] (observers1 !! package_id) ++ [callback]]> observers1)
                 = <[package_id := default [] (obs !! package_id) ++ [callback]]> obs).
  { cbv zeta. destruct (obs !! package_id) as [cbs |] eqn:E.
    - rewrite E. reflexivity.
    - rewrite lookup_insert_eq, insert_insert_eq. reflexivity. }
  cbv zeta in Hobs |- *. rewrite <- Hobs.
  destruct (negb _); [reflexivity|]. destruct (sub_observer_id _); reflexivity.
Qed.

(** X4: whatever the server answers, [subscribe] appends the callback
    to the package's list and touches no other package.  Callbacks
    subscribed in turn to one package are kept in subscription order,
    duplicates included (the same callback subscribed twice is stored
    twice). *)
Theorem subscribe_appends_in_order (R : Remote) (obs : gmap string (list Callback))
    (package_id : string) (cb : Callback) (cbs : list Callback) :
  fold_left (fun o c => fst (subscribe R o package_id c)) (cb :: cbs) obs !! package_id
    = Some (default [] (obs !! package_id) ++ cb :: cbs) /\
  (forall k, k <> package_id ->
     fold_left (fun o c => fst (subscribe R o package_id c)) (cb :: cbs) obs !! k = obs !! k).
Proof.
  set (F := fun o c => fst (subscribe R o package_id c)).
  assert (Hp : forall l o x, fold_left F l (<[package_id := x]> o) !! package_id
                               = Some (x ++ l)).
  { induction l as [| c l IH]; intros o x; cbn [fold_left].
    - rewrite lookup_insert_eq, app_nil_r. reflexivity.
    - assert (E : F (<[package_id := x]> o) c = <[package_id := x ++ [c]]> o).
      { unfold F. rewrite subscribe_table, lookup_insert_eq, insert_insert_eq.
        reflexivity. }
      rewrite E, IH, <- app_assoc. reflexivity. }
  assert (Hk : forall k, k <> package_id -> forall l o, fold_left F l o !! k = o !! k).
  { intros k Hk l. induction l as [| c l IH]; intros o; cbn [fold_left]; [reflexivity|].
    rewrite IH. unfold F. rewrite subscribe_table. apply lookup_insert_ne. congruence. }
  cbn [fold_left].
  assert (E : F obs cb = <[package_id := default [] (obs !! package_id) ++ [cb]]> obs)
    by apply subscribe_table.
  split.
  - rewrite E, Hp, <- app_assoc. reflexivity.
  - intros k Hk'. rewrite (Hk k Hk'), E. apply lookup_insert_ne. congruence.
Qed.



Lemma unsubscribe_observers (c : Client) (package_id observer_id : string) :
  observers (snd (unsubscribe c package_id observer_id)) = delete package_id (observers c).
Proof.
  unfold unsubscribe. simpl. destruct (observers c !! package_id) eqn:E; [reflexivity|].
  symmetry. apply delete_id. exact E.
Qed.


(** X7: [unsubscribe] after [subscribe] on the same package leaves the
    table without that package, whatever the subscription answered: it
    restores the table when the package had no callbacks, and otherwise
    also drops the callbacks registered before. *)
Theorem subscribe_then_unsubscribe (R : Remote) (c : Client) (package_id observer_id : string)
    (callback : Callback) :
  observers (snd (unsubscribe (set_observers c (fst (subscribe R (observers c) package_id callback)))
                              package_id observer_id))
    = delete package_id (observers c) /\
  (observers c !! package_id = None ->
   observers (snd (unsubscribe (set_observers c (fst (subscribe R (observers c) package_id callback)))
                               package_id observer_id))
     = observers c).
Proof.
  rewrite unsubscribe_observers, subscribe_table. simpl. rewrite delete_insert_eq.
  split; [reflexivity|]. intros H. apply delete_id. exact H.
Qed.

Lemma subscribe_then_unsubscribe_witness :
  observers (Registry_init ∅ "https://r.obinexus.org" LIVE None) !! "A" = None /\
  observers (snd (unsubscribe
     (set_observers (Registry_init ∅ "https://r.obinexus.org" LIVE None)
        (fst (subscribe chain_AB (observers (Registry_init ∅ "https://r.obinexus.org" LIVE None))
                "A" 1%nat)))
     "A" "obs-1"))
    = observers (Registry_init ∅ "https://r.obinexus.org" LIVE None).
Proof.
  split; [reflexivity|].
  exact (proj2 (subscribe_then_unsubscribe chain_AB
                  (Registry_init ∅ "https://r.obinexus.org" LIVE None) "A" "obs-1" 1%nat)
               eq_refl).
Defined.



(** ** [Registry.resolve_dag] *)



(** ** [Registry.install] *)

Lemma bind_exc_inv {A B} (m : M A) (k : A -> M B) (e : exn) :
  snd (bind m k) = Exc e ->
  snd m = Exc e \/ exists a, snd m = Ret a /\ snd (k a) = Exc e.
Proof.
  destruct m as [t [a | e' |]]; simpl.
  - destruct (k a) as [t' r] eqn:Hk. simpl. intros H. right. exists a. rewrite Hk. auto.
  - intros H. left. inversion H. reflexivity.
  - discriminate.
Qed.

Lemma blob_count_app (a b : list event) : blob_count (a ++ b) = (blob_count a + blob_count b)%nat.
Proof. unfold blob_count. rewrite List.filter_app, length_app. reflexivity. Qed.

Lemma request_count_app (a b : list event) :
  request_count (a ++ b) = (request_count a + request_count b)%nat.
Proof. unfold request_count. rewrite List.filter_app, length_app. reflexivity. Qed.

Lemma installs_app (a b : list event) : installs (a ++ b) = installs a ++ installs b.
Proof. unfold installs. apply flat_map_app. Qed.

Lemma install_deps_success (inst : string -> string -> M Package) (P : list event -> Prop)
    (deps : list string) :
  P [] -> (forall a b, P a -> P b -> P (a ++ b)) ->
  (forall i v t q, inst i v = (t, Ret q) -> P t) ->
  snd (install_deps inst deps) = Ret tt -> P (fst (install_deps inst deps)).
Proof.
  intros Hnil Happ Hinst. induction deps as [| d rest IH]; [intros _; exact Hnil|].
  simpl install_deps. destruct (unpack2 (py_split "@" d)) as [e | [i v]]; [discriminate|].
  unfold lift. rewrite bind_ret_l. cbn [fst snd].
  destruct (inst i v) as [t1 [q | e |]] eqn:Ei; try discriminate.
  rewrite bind_ret_trace. cbn [fst snd]. intros Hr.
  apply Happ; [exact (Hinst _ _ _ _ Ei) | exact (IH Hr)].
Qed.

Lemma install_deps_installs (inst : string -> string -> M Package) (deps : list string) :
  snd (install_deps inst deps) = Ret tt ->
  installs (fst (install_deps inst deps)) =
    concat (map (fun e => installs (fst (inst (fst e) (snd e)))) (dep_targets deps)) /\
  Forall (fun e => exists q, snd (inst (fst e) (snd e)) = Ret q) (dep_targets deps).
Proof.
  induction deps as [| d rest IH]; [split; [reflexivity | constructor]|].
  simpl install_deps. unfold dep_targets; simpl flat_map; fold (dep_targets rest).
  destruct (unpack2 (py_split "@" d)) as [e | [i v]]; [discriminate|].
  unfold lift. rewrite bind_ret_l. cbn [fst snd].
  destruct (inst i v) as [t1 [q | e |]] eqn:Ei; try discriminate.
  rewrite bind_ret_trace. cbn [fst snd]. intros Hr.
  destruct (IH Hr) as [H1 H2]. split.
  - simpl. rewrite Ei. simpl. rewrite installs_app, H1. reflexivity.
  - constructor; [exists q; simpl; rewrite Ei; reflexivity | exact H2].
Qed.

Lemma install_deps_exc (inst : string -> string -> M Package) (deps : list string) (e : exn) :
  snd (install_deps inst deps) = Exc e ->
  (exists n, e = ValueError (UnpackParts n)) \/ (exists i v, snd (inst i v) = Exc e).
Proof.
  induction deps as [| d rest IH]; [discriminate|].
  simpl install_deps. intros H. apply bind_exc_inv in H as [H | (pr & H1 & H)].
  - left. destruct (unpack2 (py_split "@" d)) as [e' | pr] eqn:Eu; simpl in H; [|discriminate].
    inversion H; subst e'. unfold unpack2 in Eu.
    destruct (py_split "@" d) as [| a [| b [| c l]]]; inversion Eu; eauto.
  - apply bind_exc_inv in H as [H | (q & H2 & H)].
    + right. eauto.
    + apply IH. exact H.
Qed.

(** X10: every successful [install] makes one metadata request per
    package it prints as installed, and downloads each of their tarballs
    twice when [verify_checksum] is on (once to check it, once to install
    it) and once when it is off. *)
Theorem install_request_counts (R : Remote) (fuel : nat) (verify : bool)
    (package_id version_range : string) (t : list event) (p : Package) :
  install R fuel package_id version_range verify = (t, Ret p) ->
  request_count t = length (installs t) /\
  blob_count t = ((if verify then 2 else 1) * length (installs t))%nat.
Proof.
  revert package_id version_range t p.
  induction fuel as [| f IH]; intros package_id version_range t p H; [discriminate|].
  apply install_success_inv in H as (_ & -> & Hd).
  rewrite request_count_app, blob_count_app, installs_app, length_app.
  pose proof (install_deps_success (fun i v => install R f i v verify)
    (fun t => request_count t = length (installs t) /\
              blob_count t = ((if verify then 2 else 1) * length (installs t))%nat)
    (dependencies p) ltac:(split; [reflexivity | cbn; lia])) as Hdeps.
  destruct Hdeps as [H1 H2].
  - intros a b [Ha1 Ha2] [Hb1 Hb2].
    rewrite request_count_app, blob_count_app, installs_app, length_app. lia.
  - intros i v t' q Hi. exact (IH i v t' q Hi).
  - exact Hd.
  - rewrite H1, H2. unfold install_prefix. destruct verify; simpl; lia.
Qed.

Lemma install_request_counts_witness :
  exists t p, install diamond 10 "A" v100 true = (t, Ret p) /\
  request_count t = length (installs t) /\ blob_count t = (2 * length (installs t))%nat /\
  length (installs t) = 5%nat.
Proof.
  lazymatch eval vm_compute in (install diamond 10 "A" v100 true) with
  | (?t, Ret ?p) =>
      assert (H : install diamond 10 "A" v100 true = (t, Ret p)) by (vm_compute; reflexivity);
      exists t, p; split; [exact H|];
      split; [exact (proj1 (install_request_counts diamond 10 true "A" v100 t p H))|];
      split; [exact (proj2 (install_request_counts diamond 10 true "A" v100 t p H))|];
      vm_compute; reflexivity
  end.
Defined.

(** X11: a successful [install] returns the root's own package (the one
    [fetch] returned for it), and its install order is a pre-order walk of
    the declared dependencies: the root, then for each declaration in list
    order the whole install order of that dependency, installed with the
    same [verify_checksum] flag and each one successful. *)
Theorem install_preorder (R : Remote) (f : nat) (verify : bool)
    (package_id version_range : string) (t : list event) (p : Package) :
  install R (S f) package_id version_range verify = (t, Ret p) ->
  fetch R package_id version_range HYBRID = ([GetPackage package_id version_range HYBRID], Ret p) /\
  installs t = name p ::
    concat (map (fun e => installs (fst (install R f (fst e) (snd e) verify)))
                (dep_targets (dependencies p))) /\
  Forall (fun e => exists q, snd (install R f (fst e) (snd e) verify) = Ret q)
         (dep_targets (dependencies p)).
Proof.
  intros H. apply install_success_inv in H as ([Hf _] & -> & Hd).
  destruct (install_deps_installs _ _ Hd) as [H1 H2].
  split; [exact Hf|]. split; [|exact H2].
  rewrite installs_app, H1. unfold install_prefix. destruct verify; reflexivity.
Qed.

Lemma install_preorder_witness :
  exists t p, install diamond 10 "A" v100 true = (t, Ret p) /\
  installs t = name p ::
    concat (map (fun e => installs (fst (install diamond 9 (fst e) (snd e) true)))
                (dep_targets (dependencies p))) /\
  installs t = ["A"; "B"; "D"; "C"; "D"]%string.
Proof.
  lazymatch eval vm_compute in (install diamond 10 "A" v100 true) with
  | (?t, Ret ?p) =>
      assert (H : install diamond 10 "A" v100 true = (t, Ret p)) by (vm_compute; reflexivity);
      exists t, p; split; [exact H|];
      split; [exact (proj1 (proj2 (install_preorder diamond 9 true "A" v100 t p H)))|];
      vm_compute; reflexivity
  end.
Defined.

(** X12: [install] does not roll back.  When the install of a
    dependency fails with an exception, [install] raises that exception,
    after the root has been fetched, downloaded and printed as installed
    and after the dependencies declared before it have been installed. *)
Theorem install_dependency_failure (R : Remote) (f : nat) (verify : bool)
    (package_id version_range : string) (p : Package) (pre post : list string)
    (d i v : string) (tp td : list event) (e : exn) :
  node_ok R verify package_id version_range p ->
  dependencies p = pre ++ d :: post ->
  install_deps (fun i v => install R f i v verify) pre = (tp, Ret tt) ->
  py_split "@" d = [i; v] ->
  install R f i v verify = (td, Exc e) ->
  install R (S f) package_id version_range verify =
    (install_prefix verify package_id version_range p ++ tp ++ td, Exc e).
Proof.
  intros Hok Hd Hpre Hs Hi.
  rewrite (install_step R f verify package_id version_range p Hok).
  rewrite Hd, (install_deps_app _ pre (d :: post) tp Hpre). cbn [fst snd].
  simpl install_deps. rewrite Hs. simpl unpack2. unfold lift. rewrite bind_ret_l.
  cbn [fst snd]. rewrite Hi. reflexivity.
Qed.

Lemma install_dependency_failure_witness :
  exists p tp, node_ok missing_dep true "A" v100 p /\
  dependencies p = [dep "B"] ++ dep "Z" :: [] /\
  install_deps (fun i v => install missing_dep 4 i v true) [dep "B"] = (tp, Ret tt) /\
  install missing_dep 5 "A" v100 true =
    (install_prefix true "A" v100 p ++ tp ++ [GetPackage "Z" v100 HYBRID],
     Exc (ResolutionError (PackageNotFound "Z"))) /\
  installs (fst (install missing_dep 5 "A" v100 true)) = ["A"; "B"]%string.
Proof.
  lazymatch eval vm_compute in (fetch missing_dep "A" v100 HYBRID) with
  | (_, Ret ?p) =>
    lazymatch eval vm_compute in
        (install_deps (fun i v => install missing_dep 4 i v true) [dep "B"]) with
    | (?tp, Ret tt) =>
      assert (Hok : node_ok missing_dep true "A" v100 p)
        by (split; [vm_compute; reflexivity
                   | split; [intros _; vm_compute; reflexivity | simpl; lia]]);
      assert (Hpre : install_deps (fun i v => install missing_dep 4 i v true) [dep "B"]
                     = (tp, Ret tt)) by (vm_compute; reflexivity);
      exists p, tp; split; [exact Hok|]; split; [reflexivity|]; split; [exact Hpre|];
      split;
      [ exact (install_dependency_failure missing_dep 4 true "A" v100 p [dep "B"] []
                 (dep "Z") "Z" v100 tp [GetPackage "Z" v100 HYBRID]
                 (ResolutionError (PackageNotFound "Z")) Hok eq_refl Hpre
                 ltac:(vm_compute; reflexivity) ltac:(vm_compute; reflexivity))
      | vm_compute; reflexivity ]
    end
  end.
Defined.

(** X13: when the tarball URL answers with an HTTP error status (400 to
    599), [install] fails before printing anything.  With
    [verify_checksum] off the error is [HTTPError].  With it on,
    [_verify_checksum] hashes the error response's body without looking
    at the status, so the error is a checksum mismatch unless that body's
    digest equals the expected checksum. *)
Theorem install_tarball_http_error (R : Remote) (f : nat) (verify : bool)
    (package_id version_range : string) (p : Package) :
  fetch R package_id version_range HYBRID = ([GetPackage package_id version_range HYBRID], Ret p) ->
  400 <= blob_status (get_blob R (tarball_url p)) < 600 ->
  install R (S f) package_id version_range verify =
    let digest := SHA256.hexdigest (content (get_blob R (tarball_url p))) in
    if verify && negb (String.eqb digest (checksum p)) then
      ([GetPackage package_id version_range HYBRID; GetBlob (tarball_url p)],
       Exc (ResolutionError (ChecksumMismatch (id p) (checksum p) digest)))
    else
      (GetPackage package_id version_range HYBRID ::
         (if verify then [GetBlob (tarball_url p)] else []) ++ [GetBlob (tarball_url p)],
       Exc (HTTPError (blob_status (get_blob R (tarball_url p))))).
Proof.
  intros Hf [Hlo Hhi]. rewrite install_S_eq, Hf, bind_ret_trace. cbv zeta.
  assert (Hrs : raise_for_status (get_blob R (tarball_url p))
                = ([], Exc (HTTPError (blob_status (get_blob R (tarball_url p)))))).
  { unfold raise_for_status. apply Z.leb_le in Hlo. apply Z.ltb_lt in Hhi.
    rewrite Hlo, Hhi. reflexivity. }
  destruct verify; cbn [andb negb].
  - rewrite verify_checksum_eq.
    destruct (String.eqb (SHA256.hexdigest (content (get_blob R (tarball_url p)))) (checksum p));
      cbn [negb].
    + cbn [fst snd bind emit]. rewrite Hrs. reflexivity.
    + reflexivity.
  - cbn [fst snd bind emit ret]. rewrite Hrs. reflexivity.
Qed.

Lemma install_tarball_http_error_witness :
  exists p, fetch broken_tarball "A" v100 HYBRID = ([GetPackage "A" v100 HYBRID], Ret p) /\
  400 <= blob_status (get_blob broken_tarball (tarball_url p)) < 600 /\
  snd (install broken_tarball 5 "A" v100 true) =
    Exc (ResolutionError (ChecksumMismatch "A" empty_digest
          (SHA256.hexdigest [Byte.x4e; Byte.x6f; Byte.x70; Byte.x65]))) /\
  snd (install broken_tarball 5 "A" v100 false) = Exc (HTTPError 404) /\
  install broken_tarball 5 "A" v100 false =
    let digest := SHA256.hexdigest (content (get_blob broken_tarball (tarball_url p))) in
    if false && negb (String.eqb digest (checksum p)) then
      ([GetPackage "A" v100 HYBRID; GetBlob (tarball_url p)],
       Exc (ResolutionError (ChecksumMismatch (id p) (checksum p) digest)))
    else
      (GetPackage "A" v100 HYBRID ::
         (if false then [GetBlob (tarball_url p)] else []) ++ [GetBlob (tarball_url p)],
       Exc (HTTPError (blob_status (get_blob broken_tarball (tarball_url p))))).
Proof.
  lazymatch eval vm_compute in (fetch broken_tarball "A" v100 HYBRID) with
  | (_, Ret ?p) =>
      assert (Hf : fetch broken_tarball "A" v100 HYBRID = ([GetPackage "A" v100 HYBRID], Ret p))
        by (vm_compute; reflexivity);
      assert (Hst : 400 <= blob_status (get_blob broken_tarball (tarball_url p)) < 600)
        by (simpl; lia);
      exists p; split; [exact Hf|]; split; [exact Hst|];
      split; [vm_compute; reflexivity|]; split; [vm_compute; reflexivity|];
      exact (install_tarball_http_error broken_tarball 4 false "A" v100 p Hf Hst)
  end.
Defined.

Ltac parse_tokens :=
  repeat match goal with
         | |- context [int_of ?p] =>
             destruct (int_of_cases p) as [(? & -> & _) | (-> & _)]; cbv beta iota
         | |- context [VersionState_of ?p] =>
             destruct (VersionState_of_cases p) as [(? & -> & _) | (-> & _)]; cbv beta iota
         end.

Lemma parse_exc_value (s : string) (e : exn) :
  SemverX_parse s = inl e -> exists r, e = ValueError r.
Proof.
  unfold SemverX_parse.
  destruct (py_split "." s) as [| p0 [| p1 [| p2 [| p3 [| p4 [| p5 [| p6 l]]]]]]];
    try (intros H; inversion H; eexists; reflexivity).
  cbv beta iota delta [bind_exn]. parse_tokens; intros H; inversion H; eexists; reflexivity.
Qed.

Lemma fetch_exc (R : Remote) (package_id version_range : string) (s : ResolutionStrategy)
    (e : exn) :
  snd (fetch R package_id version_range s) = Exc e ->
  forall a b c, e <> ResolutionError (ChecksumMismatch a b c).
Proof.
  unfold fetch, emit. rewrite bind_ret_trace. cbn [fst snd].
  destruct (_ =? 404); [intros H; inversion H; discriminate|].
  destruct (negb _); [intros H; inversion H; discriminate|].
  destruct (FaultState_of _) as [e' | fs] eqn:Ef; cbn [lift].
  { intros H; inversion H; subst. unfold FaultState_of in Ef.
    repeat match type of Ef with
           | context [if ?c then _ else _] => destruct c
           end; inversion Ef; discriminate. }
  unfold ret at 1. rewrite bind_ret_trace. cbn [fst snd].
  destruct (is_panic fs); [intros H; inversion H; discriminate|].
  destruct (SemverX_parse _) as [e' | v] eqn:Ev; cbn [lift]; [|discriminate].
  intros H a b c. inversion H; subst e'.
  destruct (parse_exc_value _ e Ev) as [r ->]. discriminate.
Qed.

(** X14: with [verify_checksum=False], [install] never fails with a
    checksum mismatch, neither for the package nor for any dependency:
    the flag is passed down the whole recursion. *)
Theorem install_unverified_no_checksum_error (R : Remote) (fuel : nat)
    (package_id version_range : string) (e : exn) :
  snd (install R fuel package_id version_range false) = Exc e ->
  forall a b c, e <> ResolutionError (ChecksumMismatch a b c).
Proof.
  revert package_id version_range.
  induction fuel as [| f IH]; intros package_id version_range H; [discriminate|].
  rewrite install_S_eq in H.
  apply bind_exc_inv in H as [H | (pk & _ & H)]; [exact (fetch_exc _ _ _ _ _ H)|].
  apply bind_exc_inv in H as [H | (u & _ & H)]; [discriminate|].
  apply bind_exc_inv in H as [H | (u' & _ & H)]; [discriminate|].
  apply bind_exc_inv in H as [H | (u'' & _ & H)].
  { unfold raise_for_status in H. destruct (_ && _); inversion H. intros a b c; discriminate. }
  apply bind_exc_inv in H as [H | (u3 & _ & H)]; [discriminate|].
  apply bind_exc_inv in H as [H | (u4 & _ & H)]; [|discriminate].
  apply install_deps_exc in H as [(n & ->) | (i & v & H)].
  - intros a b c; discriminate.
  - exact (IH i v H).
Qed.

Lemma install_unverified_no_checksum_error_witness :
  snd (install missing_dep 5 "A" v100 false) = Exc (ResolutionError (PackageNotFound "Z")) /\
  forall a b c, ResolutionError (PackageNotFound "Z") <> ResolutionError (ChecksumMismatch a b c).
Proof.
  assert (H : snd (install missing_dep 5 "A" v100 false)
              = Exc (ResolutionError (PackageNotFound "Z"))) by (vm_compute; reflexivity).
  split; [exact H|].
  exact (install_unverified_no_checksum_error missing_dep 5 "A" v100 _ H).
Defined.

(** ** [Registry._verify_checksum]: the shape of the computed digest *)

Lemma round_length (st : list Z) (kw : Z * Z) : length (SHA256.round st kw) = length st.
Proof.
  unfold SHA256.round.
  destruct st as [| a [| b [| c [| d [| e [| f [| g [| h [| x r]]]]]]]]]; reflexivity.
Qed.

Lemma fold_round_length (l : list (Z * Z)) (st : list Z) :
  length (fold_left SHA256.round l st) = length st.
Proof.
  revert st. induction l as [| kw l IH]; intros st; simpl; [reflexivity|].
  rewrite IH, round_length. reflexivity.
Qed.

Lemma compress_length (hs block : list Z) : length (SHA256.compress hs block) = length hs.
Proof.
  unfold SHA256.compress. rewrite length_map, length_combine, fold_round_length.
  apply Nat.min_id.
Qed.

Lemma digest_words_length (msg : list Z) : length (SHA256.digest_words msg) = 8%nat.
Proof.
  unfold SHA256.digest_words.
  assert (G : forall l hs, length (fold_left SHA256.compress l hs) = length hs).
  { induction l as [| b l IH]; intros hs; simpl; [reflexivity|].
    rewrite IH, compress_length. reflexivity. }
  rewrite G. reflexivity.
Qed.

Lemma hex_char_ok (d : Z) : 0 <= d < 16 -> is_lower_hex (SHA256.hex_char d) = true.
Proof.
  intros Hd.
  assert (d = 0 \/ d = 1 \/ d = 2 \/ d = 3 \/ d = 4 \/ d = 5 \/ d = 6 \/ d = 7 \/ d = 8 \/
          d = 9 \/ d = 10 \/ d = 11 \/ d = 12 \/ d = 13 \/ d = 14 \/ d = 15) as Hc by lia.
  repeat destruct Hc as [-> | Hc]; try (subst d); reflexivity.
Qed.

Lemma word_hex_shape (w : Z) :
  length (SHA256.word_hex w) = 8%nat /\ Forall (fun c => is_lower_hex c = true) (SHA256.word_hex w).
Proof.
  unfold SHA256.word_hex. rewrite length_map, length_seq. split; [reflexivity|].
  apply List.Forall_forall. intros c Hc. apply in_map_iff in Hc as (i & <- & _).
  apply hex_char_ok. change 15 with (Z.ones 4). rewrite Z.land_ones by lia.
  apply Z.mod_pos_bound. lia.
Qed.

Lemma length_string_of_list_ascii (l : list ascii) :
  String.length (string_of_list_ascii l) = length l.
Proof. induction l as [| c l IH]; simpl; congruence. Qed.

Lemma hexdigest_shape (data : list Byte.byte) :
  is_hexdigest_text (SHA256.hexdigest data) = true.
Proof.
  unfold is_hexdigest_text, SHA256.hexdigest.
  rewrite length_string_of_list_ascii, list_ascii_of_string_of_list_ascii.
  set (ws := SHA256.digest_words _).
  assert (Hl : length ws = 8%nat) by apply digest_words_length.
  assert (G : forall l, length (concat (map SHA256.word_hex l)) = (8 * length l)%nat /\
                        Forall (fun c => is_lower_hex c = true) (concat (map SHA256.word_hex l))).
  { induction l as [| w l [IH1 IH2]]; cbn [map concat]; [split; [reflexivity | constructor]|].
    destruct (word_hex_shape w) as [H1 H2].
    rewrite length_app, H1, IH1. split; [cbn [length]; lia|]. apply Forall_app; auto. }
  destruct (G ws) as [G1 G2]. rewrite G1, Hl. simpl.
  apply forallb_forall. intros c Hc. rewrite List.Forall_forall in G2. exact (G2 c Hc).
Qed.

(** X15: [_verify_checksum] compares with a digest that always has 64
    characters from 0-9 and a-f; so a package whose checksum has any
    other shape (another length, an upper-case letter, a prefix such as
    "sha256:") fails verification whatever its tarball contains. *)
Theorem verify_checksum_malformed (R : Remote) (p : Package) :
  is_hexdigest_text (SHA256.hexdigest (content (get_blob R (tarball_url p)))) = true /\
  (is_hexdigest_text (checksum p) = false ->
   verify_checksum R p =
     ([GetBlob (tarball_url p)],
      Exc (ResolutionError (ChecksumMismatch (id p) (checksum p)
             (SHA256.hexdigest (content (get_blob R (tarball_url p)))))))).
Proof.
  split; [apply hexdigest_shape|]. intros Hc. rewrite verify_checksum_eq.
  destruct (String.eqb_spec (SHA256.hexdigest (content (get_blob R (tarball_url p))))
                            (checksum p)) as [E | _]; [|reflexivity].
  rewrite <- E, hexdigest_shape in Hc. discriminate.
Qed.

Lemma verify_checksum_malformed_witness :
  exists p, snd (fetch upper_checksum "A" v100 HYBRID) = Ret p /\
  is_hexdigest_text (checksum p) = false /\
  verify_checksum upper_checksum p =
     ([GetBlob (tarball_url p)],
      Exc (ResolutionError (ChecksumMismatch (id p) (checksum p)
             (SHA256.hexdigest (content (get_blob upper_checksum (tarball_url p))))))).
Proof.
  lazymatch eval vm_compute in (fetch upper_checksum "A" v100 HYBRID) with
  | (_, Ret ?p) =>
      exists p; split; [vm_compute; reflexivity|];
      assert (Hc : is_hexdigest_text (checksum p) = false) by (vm_compute; reflexivity);
      split; [exact Hc|];
      exact (proj2 (verify_checksum_malformed upper_checksum p) Hc)
  end.
Defined.

(** ** [SemverX.parse] and [SemverX.__str__] *)

(** X16: [parse] raises its "Invalid SemVerX format" [ValueError]
    exactly when the text does not contain exactly five dots; with five
    dots, a failure always comes from [int()] or [VersionState()]. *)
Theorem parse_bad_format_iff (s : string) :
  SemverX_parse s = inl (ValueError BadFormat) <-> count_char "." s <> 5%nat.
Proof.
  pose proof (py_split_length "." s) as Hl.
  unfold SemverX_parse.
  destruct (py_split "." s) as [| p0 [| p1 [| p2 [| p3 [| p4 [| p5 [| p6 l]]]]]]];
    simpl in Hl; try (split; [intros _; lia | intros _; reflexivity]).
  split; [intros H; exfalso; revert H | intros H; lia].
  cbv beta iota delta [bind_exn]. parse_tokens; discriminate.
Qed.

Lemma parse_str (v : SemverX) : SemverX_parse (SemverX_str v) = inr v.
Proof.
  unfold SemverX_parse. rewrite py_split_SemverX_str. cbv beta iota.
  unfold int_of. rewrite !py_int_py_str_int, !VersionState_of_value.
  destruct v; reflexivity.
Qed.

(** X17: [__str__] is injective: two versions with the same text are
    equal. *)
Theorem SemverX_str_injective (v w : SemverX) : SemverX_str v = SemverX_str w -> v = w.
Proof.
  intros H. pose proof (parse_str v) as Hv. rewrite H, parse_str in Hv.
  inversion Hv. reflexivity.
Qed.

Lemma SemverX_str_injective_witness :
  SemverX_str (mkSemverX 2 STABLE 1 LEGACY 0 EXPERIMENTAL)
    = SemverX_str (mkSemverX 2 STABLE 1 LEGACY 0 EXPERIMENTAL) /\
  mkSemverX 2 STABLE 1 LEGACY 0 EXPERIMENTAL = mkSemverX 2 STABLE 1 LEGACY 0 EXPERIMENTAL.
Proof.
  split; [reflexivity|].
  exact (SemverX_str_injective _ _ eq_refl).
Defined.
